(** * speech.py: text to speech through gTTS and ffplay

    A shallow embedding of [speech.py].  The script is a straight line of
    three effectful calls, so the embedding is a state-and-exception monad
    over a small world (file system, standard input, and the history of the
    calls made so far).  The two things the script does not implement
    itself, the [gtts] package and the operating system's shell, are taken
    as an environment [Env] of oracles; every theorem quantifies over it. *)

From Stdlib Require Import ZArith String Ascii List Lia.
From stdpp Require Import base option list gmap strings.

Open Scope string_scope.
Open Scope Z_scope.

(** ** Python runtime values *)

(** An exception instance: its class name and its message. *)
Record exn := PyExn { exn_class : string; exn_msg : string }.

(** What evaluating a Python expression ends in. *)
Inductive outcome (A : Type) : Type :=
| Ok (a : A)
| Raise (e : exn).
Arguments Ok {A} a.
Arguments Raise {A} e.

Definition is_raise {A} (r : outcome A) : bool :=
  match r with Ok _ => false | Raise _ => true end.

(** The object built by [gTTS(text=..., lang=..., tld=...)]. *)
Record gTTS_obj := TTS { tts_text : string; tts_lang : string; tts_tld : string }.

(** What [tts.save(path)] does to the file at [path]: either the audio of
    the whole request is in the file and the call returns, or the call
    raises, leaving the file untouched ([None]) or with some content
    ([Some partial], possibly empty: the file was opened for writing). *)
Inductive save_outcome : Type :=
| Saved (audio : list Byte.byte)
| SaveFailed (e : exn) (left : option (list Byte.byte)).

(** The calls the script makes to the outside, with what came back.
    [EvSystem] carries the file system the command ran against and the
    status [os.system] returned once the subshell had terminated. *)
Inductive event : Type :=
| EvGTTS (text lang tld : string) (r : option exn)
| EvSave (tts : gTTS_obj) (path : string) (r : save_outcome)
| EvSystem (cmd : string) (files : gmap string (list Byte.byte)) (status : Z).

Record World := MkWorld {
  fs : gmap string (list Byte.byte);
  stdin : string;
  trace : list event
}.

Definition record_event (ev : event) (w : World) : World :=
  {| fs := fs w; stdin := stdin w; trace := (trace w ++ [ev])%list |}.

Definition write_file (path : string) (data : list Byte.byte) (w : World) : World :=
  {| fs := <[path := data]> (fs w); stdin := stdin w; trace := trace w |}.

(** ** The environment: the gtts package and the shell *)

Record Env := MkEnv {
  (** the constructor's checks: [Some e] when [gTTS(...)] raises [e] *)
  gTTS_init : World -> string -> string -> string -> option exn;
  (** the request and the write performed by [save] *)
  gTTS_write : World -> gTTS_obj -> string -> save_outcome;
  (** the status [os.system] returns for a command; [os.system] reports a
      command that is missing or fails through this status, not by raising *)
  shell : World -> string -> Z
}.

(** ** The monad of the script *)

Definition Py (A : Type) : Type := World -> outcome A * World.

#[global] Instance Py_ret : MRet Py := fun A a w => (Ok a, w).

#[global] Instance Py_bind : MBind Py := fun A B f m w =>
  match m w with
  | (Ok a, w') => f a w'
  | (Raise e, w') => (Raise e, w')
  end.

(** The events a computation adds to the history when run from [w]. *)
Definition events_of {A} (m : Py A) (w : World) : list event :=
  drop (length (trace w)) (trace (m w).2).

(** The shell commands among some events, with the status each returned. *)
Definition launches (evs : list event) : list (string * Z) :=
  omap (fun ev => match ev with
                  | EvSystem cmd _ status => Some (cmd, status)
                  | _ => None
                  end) evs.

Definition save_calls (evs : list event) : list (string * save_outcome) :=
  omap (fun ev => match ev with
                  | EvSave _ path r => Some (path, r)
                  | _ => None
                  end) evs.

Definition init_calls (evs : list event) : list (string * string * string) :=
  omap (fun ev => match ev with
                  | EvGTTS text lang tld _ => Some (text, lang, tld)
                  | _ => None
                  end) evs.

(** ** Standard input *)

Definition newline : ascii := "010"%char.

(** Split at the first newline; the newline itself is consumed. *)
Fixpoint take_line (s : string) : string * string :=
  match s with
  | EmptyString => (EmptyString, EmptyString)
  | String c s' =>
      if Ascii.eqb c newline then (EmptyString, s')
      else let '(l, rest) := take_line s' in (String c l, rest)
  end.

Definition EOFError : exn := PyExn "EOFError" "EOF when reading a line".

Section Script.
Context (env : Env).

(** [gTTS(text=text, lang=lang, tld=tld)] *)
Definition gTTS (text lang tld : string) : Py gTTS_obj := fun w =>
  let r := gTTS_init env w text lang tld in
  let w' := record_event (EvGTTS text lang tld r) w in
  match r with
  | Some e => (Raise e, w')
  | None => (Ok (TTS text lang tld), w')
  end.

(** [tts.save(savefile)] *)
Definition save (tts : gTTS_obj) (savefile : string) : Py unit := fun w =>
  let r := gTTS_write env w tts savefile in
  let ev := EvSave tts savefile r in
  match r with
  | Saved audio => (Ok tt, record_event ev (write_file savefile audio w))
  | SaveFailed e (Some partial) =>
      (Raise e, record_event ev (write_file savefile partial w))
  | SaveFailed e None => (Raise e, record_event ev w)
  end.

(** [os.system(command)]: runs the command in a subshell, waits for it,
    and returns its status. *)
Definition os_system (command : string) : Py Z := fun w =>
  let status := shell env w command in
  (Ok status, record_event (EvSystem command (fs w) status) w).

(** [input()]: one line of standard input without its newline;
    [EOFError] when the input is exhausted. *)
Definition input : Py string := fun w =>
  match stdin w with
  | EmptyString => (Raise EOFError, w)
  | s => let '(line, rest) := take_line s in
         (Ok line, {| fs := fs w; stdin := rest; trace := trace w |})
  end.

(** [def speak(text, lang="en", tld="")]; an omitted argument is [None]. *)
Definition speak (text : string) (lang tld : option string) : Py unit :=
  let lang := default "en" lang in
  let tld := default "" tld in
  tts ← gTTS text lang tld;
  save tts "__text_output.mp3";;
  os_system "ffplay -v 0 -nodisp -autoexit __text_output.mp3";;
  mret tt.

(** [if __name__ == "__main__": speak(input(), "fr", "fr")] *)
Definition main : Py unit :=
  text ← input;
  speak text (Some "fr") (Some "fr").

End Script.

(** The interpreter's exit status for a script: 0 when the module body runs
    to its end, 1 when an ordinary exception reaches the top level.  (An
    uncaught [SystemExit] or [KeyboardInterrupt] ends the interpreter with
    another status; the statements below use this function only at a normal
    end and at [EOFError].) *)
Definition exit_status (r : outcome unit) : Z :=
  match r with Ok _ => 0 | Raise _ => 1 end.

Definition run_script (env : Env) (w : World) : Z * World :=
  let '(r, w') := main env w in (exit_status r, w').

(** ** Names used in the statements *)

Definition output_file : string := "__text_output.mp3".
Definition player_command : string :=
  "ffplay -v 0 -nodisp -autoexit __text_output.mp3".

(** The library accepts the request: the constructor does not raise. *)
Definition accepts (env : Env) (w : World) (text lang tld : string) : Prop :=
  gTTS_init env w text lang tld = None.

(** The world in which [save] runs once the constructor has returned. *)
Definition after_init (w : World) (text lang tld : string) : World :=
  record_event (EvGTTS text lang tld None) w.

(** The request is accepted and the service returns [audio] for it. *)
Definition synthesizes (env : Env) (w : World) (text lang tld : string)
    (audio : list Byte.byte) : Prop :=
  accepts env w text lang tld /\
  gTTS_write env (after_init w text lang tld) (TTS text lang tld) output_file
    = Saved audio.

(** The world in which the player runs once [save] has returned. *)
Definition after_save (w : World) (text lang tld : string)
    (audio : list Byte.byte) : World :=
  record_event (EvSave (TTS text lang tld) output_file (Saved audio))
    (write_file output_file audio (after_init w text lang tld)).

(** ** Example environments *)

Definition AssertionError_no_text : exn := PyExn "AssertionError" "No text to speak".
Definition ValueError_lang (lang : string) : exn :=
  PyExn "ValueError" ("Language not supported: " ++ lang).
Definition gTTSError_connection : exn :=
  PyExn "gTTSError" "Failed to connect. Probable cause: Unknown".

(** Three bytes standing for the audio returned by the service. *)
Definition sample_audio : list Byte.byte := [Byte.x49; Byte.x44; Byte.x33].
Definition other_audio : list Byte.byte := [Byte.xff; Byte.xfb].

(** A library that refuses an empty text and any language other than
    English and French, as the constructor of gTTS does. *)
Definition checking_init (_ : World) (text lang tld : string) : option exn :=
  if String.eqb text "" then Some AssertionError_no_text
  else if String.eqb lang "en" || String.eqb lang "fr" then None
  else Some (ValueError_lang lang).

(** Service reachable, player installed and playing to the end. *)
Definition env_ok : Env :=
  {| gTTS_init := checking_init;
     gTTS_write := fun _ _ _ => Saved sample_audio;
     shell := fun _ _ => 0 |}.

(** Service reachable, no [ffplay] on the search path: the shell exits with
    127, which [os.system] returns as the wait status 127 * 256. *)
Definition env_no_player : Env :=
  {| gTTS_init := checking_init;
     gTTS_write := fun _ _ _ => Saved sample_audio;
     shell := fun _ _ => 32512 |}.

(** Service unreachable: [save] has opened the file and then raises. *)
Definition env_offline : Env :=
  {| gTTS_init := checking_init;
     gTTS_write := fun _ _ _ => SaveFailed gTTSError_connection (Some []);
     shell := fun _ _ => 0 |}.

Definition world_of_stdin (s : string) : World :=
  {| fs := ∅; stdin := s; trace := [] |}.

Definition line (s : string) : string := s ++ String newline EmptyString.

(** A world whose output file is left over from an earlier run. *)
Definition world_with_old_file : World :=
  {| fs := {[ output_file := other_audio ]}; stdin := ""; trace := [] |}.

(** The fields into which the shell splits a command that has no quoting. *)
Definition argv (cmd : string) : list string := String.words cmd.

(** Characters the shell reads literally: letters, digits, [_], [.], [-]. *)
Definition plain_char (c : ascii) : bool :=
  let n := N_of_ascii c in
  ((48 <=? n) && (n <=? 57) || (65 <=? n) && (n <=? 90) ||
   (97 <=? n) && (n <=? 122) || (n =? 95) || (n =? 46) || (n =? 45))%N.

Definition plain_command (cmd : string) : bool :=
  forallb (fun c => plain_char c || Ascii.eqb c " ") (list_ascii_of_string cmd).

(** The text has nothing but white space in it. *)
Definition blank (s : string) : bool :=
  forallb Ascii.is_space (list_ascii_of_string s).

(** A library that takes any non-empty text in its constructor and, in
    [save], opens the file and only then finds that a text of blanks has
    nothing to speak, as gTTS does. *)
Definition env_strip : Env :=
  {| gTTS_init := checking_init;
     gTTS_write := fun _ tts _ =>
       if blank (tts_text tts)
       then SaveFailed AssertionError_no_text (Some [])
       else Saved sample_audio;
     shell := fun _ _ => 0 |}.

(** A library whose audio depends on the text, for runs of two calls. *)
Definition audio_for (tts : gTTS_obj) : list Byte.byte :=
  if String.eqb (tts_text tts) "hello" then sample_audio else other_audio.

Definition env_by_text : Env :=
  {| gTTS_init := checking_init;
     gTTS_write := fun _ tts _ => Saved (audio_for tts);
     shell := fun _ _ => 0 |}.

(** No newline character occurs in [s]. *)
Definition no_newline (s : string) : bool :=
  forallb (fun c => negb (Ascii.eqb c newline)) (list_ascii_of_string s).

(** The world [speak] starts in once [input()] has taken its line. *)
Definition after_input (w : World) : World :=
  {| fs := fs w; stdin := (take_line (stdin w)).2; trace := trace w |}.

(** ** How a call of [speak] runs *)

(** The three ways through [speak]: the constructor raises, [save] raises,
    or both return and the player is run.  Each gives the result, the final
    world and the events added. *)
Inductive speak_run (env : Env) (w : World) (text lang tld : string) :
    outcome unit -> World -> list event -> Prop :=
| Run_init_raises e :
    gTTS_init env w text lang tld = Some e ->
    speak_run env w text lang tld
      (Raise e)
      (record_event (EvGTTS text lang tld (Some e)) w)
      [EvGTTS text lang tld (Some e)]
| Run_save_raises e left :
    accepts env w text lang tld ->
    gTTS_write env (after_init w text lang tld) (TTS text lang tld) output_file
      = SaveFailed e left ->
    speak_run env w text lang tld
      (Raise e)
      (record_event (EvSave (TTS text lang tld) output_file (SaveFailed e left))
         (match left with
          | Some partial => write_file output_file partial (after_init w text lang tld)
          | None => after_init w text lang tld
          end))
      [EvGTTS text lang tld None;
       EvSave (TTS text lang tld) output_file (SaveFailed e left)]
| Run_played audio :
    synthesizes env w text lang tld audio ->
    speak_run env w text lang tld
      (Ok tt)
      (record_event
         (EvSystem player_command (fs (after_save w text lang tld audio))
            (shell env (after_save w text lang tld audio) player_command))
         (after_save w text lang tld audio))
      [EvGTTS text lang tld None;
       EvSave (TTS text lang tld) output_file (Saved audio);
       EvSystem player_command (fs (after_save w text lang tld audio))
         (shell env (after_save w text lang tld audio) player_command)].

Lemma drop_old_1 (t : list event) a : drop (length t) (t ++ [a])%list = [a].
Proof. apply drop_app_length. Qed.

Lemma drop_old_2 (t : list event) a b :
  drop (length t) ((t ++ [a]) ++ [b])%list = [a; b].
Proof. rewrite <- app_assoc. apply drop_app_length. Qed.

Lemma drop_old_3 (t : list event) a b c :
  drop (length t) (((t ++ [a]) ++ [b]) ++ [c])%list = [a; b; c].
Proof. rewrite <- !app_assoc. apply drop_app_length. Qed.

Lemma speak_spec env w text lang tld :
  speak_run env w text (default "en" lang) (default "" tld)
    (speak env text lang tld w).1
    (speak env text lang tld w).2
    (events_of (speak env text lang tld) w).
Proof.
  set (l := default "en" lang). set (t := default "" tld).
  unfold events_of, speak, mbind, Py_bind, gTTS. fold l t.
  destruct (gTTS_init env w text l t) as [e|] eqn:Hinit; simpl.
  - rewrite drop_old_1. by apply Run_init_raises.
  - unfold save.
    fold (after_init w text l t).
    destruct (gTTS_write env (after_init w text l t) (TTS text l t)
                "__text_output.mp3") as [audio|e left] eqn:Hsave; simpl.
    + rewrite drop_old_3. apply Run_played. by split.
    + destruct left as [partial|]; simpl; rewrite drop_old_2;
        by apply (Run_save_raises env w text l t e _ Hinit Hsave).
Qed.

(** [speak] as an equation, for each of the three ways. *)
Lemma speak_played env w text lang tld audio :
  synthesizes env w text (default "en" lang) (default "" tld) audio ->
  let w2 := after_save w text (default "en" lang) (default "" tld) audio in
  speak env text lang tld w =
    (Ok tt, record_event
              (EvSystem player_command (fs w2) (shell env w2 player_command)) w2).
Proof.
  intros [Hinit Hsave]. unfold accepts in Hinit.
  unfold speak, mbind, Py_bind, gTTS. rewrite Hinit. simpl.
  unfold save. fold (after_init w text (default "en" lang) (default "" tld)).
  change "__text_output.mp3" with output_file. rewrite Hsave. reflexivity.
Qed.

Lemma speak_init_raises env w text lang tld e :
  gTTS_init env w text (default "en" lang) (default "" tld) = Some e ->
  speak env text lang tld w =
    (Raise e,
     record_event (EvGTTS text (default "en" lang) (default "" tld) (Some e)) w).
Proof.
  intros Hinit. unfold speak, mbind, Py_bind, gTTS. by rewrite Hinit.
Qed.

Lemma events_of_played env w text lang tld audio :
  synthesizes env w text (default "en" lang) (default "" tld) audio ->
  let l := default "en" lang in
  let t := default "" tld in
  let w2 := after_save w text l t audio in
  events_of (speak env text lang tld) w =
    [EvGTTS text l t None;
     EvSave (TTS text l t) output_file (Saved audio);
     EvSystem player_command (fs w2) (shell env w2 player_command)].
Proof.
  intros Hs. simpl. unfold events_of. rewrite (speak_played _ _ _ _ _ _ Hs).
  simpl. apply drop_old_3.
Qed.

Lemma fs_after_save w text lang tld audio :
  fs (after_save w text lang tld audio) !! output_file = Some audio.
Proof. simpl. apply lookup_insert_eq. Qed.

Lemma speak_save_raises env w text lang tld e left :
  accepts env w text (default "en" lang) (default "" tld) ->
  gTTS_write env (after_init w text (default "en" lang) (default "" tld))
    (TTS text (default "en" lang) (default "" tld)) output_file = SaveFailed e left ->
  (speak env text lang tld w).1 = Raise e /\
  events_of (speak env text lang tld) w =
    [EvGTTS text (default "en" lang) (default "" tld) None;
     EvSave (TTS text (default "en" lang) (default "" tld)) output_file
       (SaveFailed e left)].
Proof.
  intros Hinit Hsave. unfold accepts in Hinit.
  unfold events_of, speak, mbind, Py_bind, gTTS. rewrite Hinit. simpl.
  unfold save. fold (after_init w text (default "en" lang) (default "" tld)).
  change "__text_output.mp3" with output_file. rewrite Hsave.
  destruct left; simpl; by rewrite drop_old_2.
Qed.

Lemma events_of_init_raises env w text lang tld e :
  gTTS_init env w text (default "en" lang) (default "" tld) = Some e ->
  events_of (speak env text lang tld) w =
    [EvGTTS text (default "en" lang) (default "" tld) (Some e)].
Proof.
  intros Hinit. unfold events_of. rewrite (speak_init_raises _ _ _ _ _ _ Hinit).
  apply drop_old_1.
Qed.

Lemma speak_keeps_stdin env w text lang tld :
  stdin (speak env text lang tld w).2 = stdin w.
Proof.
  pose proof (speak_spec env w text lang tld) as Hrun.
  inversion Hrun as [e He Hx Hw Hevs|e left Ha Hsv Hx Hw Hevs|audio Hs Hx Hw Hevs];
    try reflexivity.
  by destruct left.
Qed.

Lemma launches_of_speak env w text lang tld c s :
  (c, s) ∈ launches (events_of (speak env text lang tld) w) ->
  c = player_command.
Proof.
  pose proof (speak_spec env w text lang tld) as Hrun.
  inversion Hrun as [e He Hx Hw Hevs|e left Ha Hsv Hx Hw Hevs|audio Hs Hx Hw Hevs];
    simpl; intros Hin.
  - by apply elem_of_nil in Hin.
  - by apply elem_of_nil in Hin.
  - apply list_elem_of_singleton in Hin. congruence.
Qed.


Lemma main_after_input env w :
  stdin w <> "" ->
  main env w = speak env (take_line (stdin w)).1 (Some "fr") (Some "fr") (after_input w).
Proof.
  intros Hne. unfold main, mbind, Py_bind, input, after_input.
  destruct (stdin w) as [|c s] eqn:Hin; [done|].
  by destruct (take_line (String c s)).
Qed.

Lemma events_of_main env w :
  stdin w <> "" ->
  events_of (main env) w =
    events_of (speak env (take_line (stdin w)).1 (Some "fr") (Some "fr")) (after_input w).
Proof. intros Hne. unfold events_of. by rewrite (main_after_input _ _ Hne). Qed.

(** ** Runs on the example environments *)

Example main_bonjour :
  main env_ok (world_of_stdin (line "bonjour")) =
    (Ok tt,
     {| fs := {[ output_file := sample_audio ]};
        stdin := "";
        trace := [EvGTTS "bonjour" "fr" "fr" None;
                  EvSave (TTS "bonjour" "fr" "fr") output_file (Saved sample_audio);
                  EvSystem player_command {[ output_file := sample_audio ]} 0] |}).
Proof. reflexivity. Qed.

Example main_no_input :
  main env_ok (world_of_stdin "") = (Raise EOFError, world_of_stdin "").
Proof. reflexivity. Qed.

Example speak_offline :
  speak env_offline "hello" None None world_with_old_file =
    (Raise gTTSError_connection,
     {| fs := {[ output_file := [] ]};
        stdin := "";
        trace := [EvGTTS "hello" "en" "" None;
                  EvSave (TTS "hello" "en" "") output_file
                    (SaveFailed gTTSError_connection (Some []))] |}).
Proof. reflexivity. Qed.

Example script_exit_on_error :
  (run_script env_ok (world_of_stdin (line ""))).1 = 1.
Proof. reflexivity. Qed.

(** ** The claims *)

(** C1, as stated, fails: a text that is not empty and a supported
    language and domain do not make the file non-empty.  For a text of one
    blank the constructor accepts the request, [save] opens the file and
    raises, and [speak], which checks nothing itself, raises too, leaving
    an empty "__text_output.mp3" and running no player. *)
Lemma C1_counterexample :
  " " <> "" /\
  accepts env_strip (world_of_stdin "") " " "en" "com" /\
  (speak env_strip " " (Some "en") (Some "com") (world_of_stdin "")).1
    = Raise AssertionError_no_text /\
  fs (speak env_strip " " (Some "en") (Some "com") (world_of_stdin "")).2
    !! "__text_output.mp3" = Some [] /\
  launches (events_of (speak env_strip " " (Some "en") (Some "com"))
              (world_of_stdin "")) = [].
Proof. repeat split. discriminate. Qed.

(** C1, amended: for a text, language and domain for which the library
    accepts the request and [save] returns audio, [speak] writes exactly
    that audio to "__text_output.mp3" and only then runs the player: the
    events are the constructor, the completed save and the player, in this
    order, the file the player finds is the audio, byte for byte, and it is
    still there when [speak] returns. *)
Theorem C1_speak_writes_audio_before_player env w text lang tld audio :
  synthesizes env w text (default "en" lang) (default "" tld) audio ->
  exists files status,
    (speak env text lang tld w).1 = Ok tt /\
    events_of (speak env text lang tld) w =
      [EvGTTS text (default "en" lang) (default "" tld) None;
       EvSave (TTS text (default "en" lang) (default "" tld))
         "__text_output.mp3" (Saved audio);
       EvSystem player_command files status] /\
    files !! "__text_output.mp3" = Some audio /\
    fs (speak env text lang tld w).2 !! "__text_output.mp3" = Some audio.
Proof.
  intros Hs.
  eexists _, _. split; [by rewrite (speak_played _ _ _ _ _ _ Hs)|].
  split; [exact (events_of_played _ _ _ _ _ _ Hs)|].
  split; [apply fs_after_save|].
  rewrite (speak_played _ _ _ _ _ _ Hs). simpl. apply lookup_insert_eq.
Qed.

Lemma C1_witness :
  exists files status,
    (speak env_strip "hello" (Some "en") (Some "com") (world_of_stdin "")).1 = Ok tt /\
    events_of (speak env_strip "hello" (Some "en") (Some "com")) (world_of_stdin "") =
      [EvGTTS "hello" "en" "com" None;
       EvSave (TTS "hello" "en" "com") "__text_output.mp3" (Saved sample_audio);
       EvSystem player_command files status] /\
    files !! "__text_output.mp3" = Some sample_audio /\
    fs (speak env_strip "hello" (Some "en") (Some "com") (world_of_stdin "")).2
      !! "__text_output.mp3" = Some sample_audio.
Proof.
  apply (C1_speak_writes_audio_before_player env_strip (world_of_stdin "")
           "hello" (Some "en") (Some "com") sample_audio).
  split; reflexivity.
Defined.

(** C2: in every run of [speak], whatever the library and the shell do, a
    run of the player is preceded by a save to "__text_output.mp3" that
    returned, and the file the player finds there is the saved audio. *)
Theorem C2_player_never_before_write env w text lang tld pre cmd files status post :
  events_of (speak env text lang tld) w = (pre ++ EvSystem cmd files status :: post)%list ->
  exists tts audio,
    EvSave tts "__text_output.mp3" (Saved audio) ∈ pre /\
    files !! "__text_output.mp3" = Some audio.
Proof.
  intros Hev.
  pose proof (speak_spec env w text lang tld) as Hrun.
  rewrite Hev in Hrun.
  inversion Hrun as [e He Hr Hw Hevs|e left Ha Hsv Hr Hw Hevs|audio Hs Hr Hw Hevs].
  - destruct pre as [|? [|? ?]]; simplify_eq/=.
  - destruct pre as [|? [|? [|? ?]]]; simplify_eq/=.
  - destruct pre as [|? [|? [|? [|? ?]]]]; simplify_eq/=.
    exists (TTS text (default "en" lang) (default "" tld)), audio.
    split; [|apply lookup_insert_eq].
    apply list_elem_of_further, list_elem_of_here.
Qed.

Lemma C2_witness :
  exists tts audio,
    EvSave tts "__text_output.mp3" (Saved audio) ∈
      [EvGTTS "hello" "en" "com" None;
       EvSave (TTS "hello" "en" "com") "__text_output.mp3" (Saved sample_audio)] /\
    (<["__text_output.mp3" := sample_audio]> ∅ : gmap string (list Byte.byte))
      !! "__text_output.mp3" = Some audio.
Proof.
  apply (C2_player_never_before_write env_ok (world_of_stdin "")
           "hello" (Some "en") (Some "com")
           [EvGTTS "hello" "en" "com" None;
            EvSave (TTS "hello" "en" "com") "__text_output.mp3" (Saved sample_audio)]
           player_command (<["__text_output.mp3" := sample_audio]> ∅) 0 []).
  reflexivity.
Defined.

(** C3, as stated, fails: a call the library refuses (here an unsupported
    language) raises before the player is reached, so that call runs the
    player zero times. *)
Lemma C3_counterexample :
  (speak env_ok "hello" (Some "xx") (Some "com") (world_of_stdin "")).1
    = Raise (ValueError_lang "xx") /\
  launches (events_of (speak env_ok "hello" (Some "xx") (Some "com"))
              (world_of_stdin "")) = [] /\
  length (launches (events_of (speak env_ok "hello" (Some "xx") (Some "com"))
                      (world_of_stdin ""))) <> 1%nat.
Proof. repeat split. discriminate. Qed.

(** C3, amended: a call in which the constructor and the save return runs
    the player exactly once, with the command whose fields are [ffplay],
    the quiet flag [-v 0], [-nodisp], [-autoexit] and the output file, and
    [speak] returns with the player's status already in the history, as the
    last event; a call in which one of them raises does not run it. *)
Theorem C3_player_launched_once_after_save env w text lang tld :
  (forall audio,
     synthesizes env w text (default "en" lang) (default "" tld) audio ->
     exists files status,
       launches (events_of (speak env text lang tld) w) = [(player_command, status)] /\
       argv player_command =
         ["ffplay"; "-v"; "0"; "-nodisp"; "-autoexit"; "__text_output.mp3"] /\
       (speak env text lang tld w).1 = Ok tt /\
       last (trace (speak env text lang tld w).2)
         = Some (EvSystem player_command files status)) /\
  (is_raise (speak env text lang tld w).1 = true ->
   launches (events_of (speak env text lang tld) w) = []).
Proof.
  split.
  - intros audio Hs. eexists _, _.
    rewrite (events_of_played _ _ _ _ _ _ Hs), (speak_played _ _ _ _ _ _ Hs).
    repeat split. simpl. apply last_snoc.
  - intros Hr. pose proof (speak_spec env w text lang tld) as Hrun.
    inversion Hrun as [e He Hx Hw Hevs|e left Ha Hsv Hx Hw Hevs|audio Hs Hx Hw Hevs];
      [reflexivity | reflexivity |].
    rewrite <- Hx in Hr. discriminate.
Qed.

Lemma C3_witness :
  (forall audio,
     synthesizes env_ok (world_of_stdin "") "hello" "en" "com" audio ->
     exists files status,
       launches (events_of (speak env_ok "hello" (Some "en") (Some "com"))
                   (world_of_stdin "")) = [(player_command, status)] /\
       argv player_command =
         ["ffplay"; "-v"; "0"; "-nodisp"; "-autoexit"; "__text_output.mp3"] /\
       (speak env_ok "hello" (Some "en") (Some "com") (world_of_stdin "")).1 = Ok tt /\
       last (trace (speak env_ok "hello" (Some "en") (Some "com") (world_of_stdin "")).2)
         = Some (EvSystem player_command files status)) /\
  synthesizes env_ok (world_of_stdin "") "hello" "en" "com" sample_audio /\
  launches (events_of (speak env_ok "hello" (Some "xx") (Some "com"))
              (world_of_stdin "")) = [].
Proof.
  split; [|split].
  - apply (C3_player_launched_once_after_save env_ok (world_of_stdin "")
             "hello" (Some "en") (Some "com")).
  - split; reflexivity.
  - apply (C3_player_launched_once_after_save env_ok (world_of_stdin "")
             "hello" (Some "xx") (Some "com")).
    reflexivity.
Defined.

(** C4: of two calls in succession, the second, when its save returns,
    leaves in "__text_output.mp3" exactly the audio of the second call,
    whatever the first call did and whatever it left in the file; in
    particular the file is not the earlier content followed by the new. *)
Theorem C4_second_call_overwrites env w text1 lang1 tld1 text2 lang2 tld2 audio2 :
  let w1 := (speak env text1 lang1 tld1 w).2 in
  synthesizes env w1 text2 (default "en" lang2) (default "" tld2) audio2 ->
  fs (speak env text2 lang2 tld2 w1).2 !! "__text_output.mp3" = Some audio2 /\
  (forall old, fs w1 !! "__text_output.mp3" = Some old -> old <> [] ->
     fs (speak env text2 lang2 tld2 w1).2 !! "__text_output.mp3"
       <> Some (old ++ audio2)%list).
Proof.
  intros w1 Hs.
  assert (fs (speak env text2 lang2 tld2 w1).2 !! "__text_output.mp3" = Some audio2)
    as Hfs.
  { rewrite (speak_played _ _ _ _ _ _ Hs). simpl. apply lookup_insert_eq. }
  split; [exact Hfs|].
  intros old _ Hold. rewrite Hfs. intros [= Heq].
  apply (f_equal length) in Heq. rewrite length_app in Heq.
  destruct old; [done | simpl in Heq; lia].
Qed.

Lemma C4_witness :
  let w1 := (speak env_by_text "hello" None None (world_of_stdin "")).2 in
  fs w1 !! "__text_output.mp3" = Some sample_audio /\
  fs (speak env_by_text "bonjour" (Some "fr") (Some "fr") w1).2 !! "__text_output.mp3"
    = Some other_audio /\
  (forall old, fs w1 !! "__text_output.mp3" = Some old -> old <> [] ->
     fs (speak env_by_text "bonjour" (Some "fr") (Some "fr") w1).2
       !! "__text_output.mp3" <> Some (old ++ other_audio)%list).
Proof.
  split; [reflexivity|].
  apply (C4_second_call_overwrites env_by_text (world_of_stdin "")
           "hello" None None "bonjour" (Some "fr") (Some "fr") other_audio).
  split; reflexivity.
Defined.

(** C5, as stated, fails: with no player on the search path [os.system]
    returns 32512; [speak] drops that value and returns, nothing is raised,
    and the script ends with status 0, not with what the call returned. *)
Lemma C5_counterexample :
  launches (events_of (main env_no_player) (world_of_stdin (line "bonjour")))
    = [(player_command, 32512)] /\
  (main env_no_player (world_of_stdin (line "bonjour"))).1 = Ok tt /\
  ~ (is_raise (main env_no_player (world_of_stdin (line "bonjour"))).1 = true \/
     (run_script env_no_player (world_of_stdin (line "bonjour"))).1 <> 0) /\
  (run_script env_no_player (world_of_stdin (line "bonjour"))).1 <> 32512.
Proof.
  split; [reflexivity|]. split; [reflexivity|]. split.
  - intros [H|H]; [discriminate H | by apply H].
  - discriminate.
Qed.

(** C5, amended: when the constructor and the save return and the player
    is missing or fails, [os.system] returns a non-zero status, which
    [speak] discards: the player was run once with that status, [speak]
    returns without raising, and the script run directly ends with exit
    status 0. *)
Theorem C5_player_status_discarded env w audio status :
  stdin w <> "" ->
  synthesizes env (after_input w) (take_line (stdin w)).1 "fr" "fr" audio ->
  shell env (after_save (after_input w) (take_line (stdin w)).1 "fr" "fr" audio)
    player_command = status ->
  status <> 0 ->
  launches (events_of (main env) w) = [(player_command, status)] /\
  (speak env (take_line (stdin w)).1 (Some "fr") (Some "fr") (after_input w)).1 = Ok tt /\
  (main env w).1 = Ok tt /\
  (run_script env w).1 = 0.
Proof.
  intros Hne Hs Hst _.
  pose proof (speak_played env (after_input w) _ (Some "fr") (Some "fr") audio Hs) as Hsp.
  pose proof (events_of_played env (after_input w) _ (Some "fr") (Some "fr") audio Hs) as Hev.
  simpl in Hsp, Hev.
  rewrite (events_of_main _ _ Hne), Hev. unfold run_script.
  rewrite (main_after_input _ _ Hne), Hsp. simpl.
  rewrite <- Hst. done.
Qed.

Lemma C5_witness :
  launches (events_of (main env_no_player) (world_of_stdin (line "bonjour")))
    = [(player_command, 32512)] /\
  (speak env_no_player
     (take_line (stdin (world_of_stdin (line "bonjour")))).1 (Some "fr") (Some "fr")
     (after_input (world_of_stdin (line "bonjour")))).1 = Ok tt /\
  (main env_no_player (world_of_stdin (line "bonjour"))).1 = Ok tt /\
  (run_script env_no_player (world_of_stdin (line "bonjour"))).1 = 0.
Proof.
  apply (C5_player_status_discarded env_no_player (world_of_stdin (line "bonjour"))
           sample_audio 32512).
  - discriminate.
  - split; reflexivity.
  - reflexivity.
  - discriminate.
Defined.






(** C8: when the library refuses the request (an unsupported language
    code makes the constructor, or the save, raise [e]), [speak] raises
    that same [e] to its caller: it does not return normally with an empty
    file, the player is not run, and no step is tried again (one
    constructor call, at most one save).  When it is the constructor that
    raises, the files are as they were. *)
Theorem C8_library_failure_propagates env w text lang tld e :
  (gTTS_init env w text (default "en" lang) (default "" tld) = Some e \/
   (accepts env w text (default "en" lang) (default "" tld) /\
    exists left,
      gTTS_write env (after_init w text (default "en" lang) (default "" tld))
        (TTS text (default "en" lang) (default "" tld)) output_file
        = SaveFailed e left)) ->
  (speak env text lang tld w).1 = Raise e /\
  ~ ((speak env text lang tld w).1 = Ok tt /\
     fs (speak env text lang tld w).2 !! "__text_output.mp3" = Some []) /\
  launches (events_of (speak env text lang tld) w) = [] /\
  length (init_calls (events_of (speak env text lang tld) w)) = 1%nat /\
  (length (save_calls (events_of (speak env text lang tld) w)) <= 1)%nat /\
  (gTTS_init env w text (default "en" lang) (default "" tld) = Some e ->
   fs (speak env text lang tld w).2 = fs w).
Proof.
  intros [Hinit|[Hacc [left Hsave]]].
  - rewrite (events_of_init_raises _ _ _ _ _ _ Hinit),
      (speak_init_raises _ _ _ _ _ _ Hinit). simpl.
    repeat split; try done; try lia. by intros [? _].
  - destruct (speak_save_raises _ _ _ _ _ _ _ Hacc Hsave) as [Hr Hev].
    rewrite Hev, Hr. simpl.
    repeat split; try done; try lia.
    + by intros [? _].
    + unfold accepts in Hacc. congruence.
Qed.

Lemma C8_witness :
  (speak env_ok "hello" (Some "xx") None world_with_old_file).1
    = Raise (ValueError_lang "xx") /\
  ~ ((speak env_ok "hello" (Some "xx") None world_with_old_file).1 = Ok tt /\
     fs (speak env_ok "hello" (Some "xx") None world_with_old_file).2
       !! "__text_output.mp3" = Some []) /\
  launches (events_of (speak env_ok "hello" (Some "xx") None) world_with_old_file) = [] /\
  length (init_calls (events_of (speak env_ok "hello" (Some "xx") None)
                        world_with_old_file)) = 1%nat /\
  (length (save_calls (events_of (speak env_ok "hello" (Some "xx") None)
                         world_with_old_file)) <= 1)%nat /\
  (gTTS_init env_ok world_with_old_file "hello" "xx" "" = Some (ValueError_lang "xx") ->
   fs (speak env_ok "hello" (Some "xx") None world_with_old_file).2
     = fs world_with_old_file).
Proof.
  apply (C8_library_failure_propagates env_ok world_with_old_file
           "hello" (Some "xx") None (ValueError_lang "xx")).
  left. reflexivity.
Defined.

(** C9: whatever the text, language, domain, library, shell and starting
    world of two calls of [speak], a command either of them hands to the
    shell is the one constant "ffplay -v 0 -nodisp -autoexit
    __text_output.mp3"; it is made of plain characters and blanks only, and
    no argument of [speak] is part of it. *)
Theorem C9_shell_command_is_constant
    env w text lang tld env' w' text' lang' tld' c s c' s' :
  (c, s) ∈ launches (events_of (speak env text lang tld) w) ->
  (c', s') ∈ launches (events_of (speak env' text' lang' tld') w') ->
  c = c' /\
  c = "ffplay -v 0 -nodisp -autoexit __text_output.mp3" /\
  plain_command c = true.
Proof.
  intros ->%launches_of_speak ->%launches_of_speak. repeat split.
Qed.

Lemma C9_witness :
  player_command = player_command /\
  player_command = "ffplay -v 0 -nodisp -autoexit __text_output.mp3" /\
  plain_command player_command = true.
Proof.
  apply (C9_shell_command_is_constant
           env_ok (world_of_stdin "") "hello" None None
           env_by_text world_with_old_file "; rm -rf ~" (Some "fr") (Some "fr")
           player_command 0 player_command 0).
  - vm_compute. apply list_elem_of_here.
  - vm_compute. apply list_elem_of_here.
Defined.

(** C10: when the constructor raises, [speak] raises the same exception
    without calling [save] or the player, and every file, the output file
    of an earlier run included, is as it was; when [save] raises, [speak]
    raises the same exception without running the player. *)
Theorem C10_no_player_after_library_failure env w text lang tld :
  (forall e,
     gTTS_init env w text (default "en" lang) (default "" tld) = Some e ->
     (speak env text lang tld w).1 = Raise e /\
     launches (events_of (speak env text lang tld) w) = [] /\
     save_calls (events_of (speak env text lang tld) w) = [] /\
     fs (speak env text lang tld w).2 = fs w) /\
  (forall e left,
     accepts env w text (default "en" lang) (default "" tld) ->
     gTTS_write env (after_init w text (default "en" lang) (default "" tld))
       (TTS text (default "en" lang) (default "" tld)) output_file
       = SaveFailed e left ->
     (speak env text lang tld w).1 = Raise e /\
     launches (events_of (speak env text lang tld) w) = []).
Proof.
  split.
  - intros e Hinit.
    rewrite (events_of_init_raises _ _ _ _ _ _ Hinit),
      (speak_init_raises _ _ _ _ _ _ Hinit). done.
  - intros e left Hacc Hsave.
    destruct (speak_save_raises _ _ _ _ _ _ _ Hacc Hsave) as [Hr Hev].
    by rewrite Hev, Hr.
Qed.

Lemma C10_witness :
  ((speak env_ok "" None None world_with_old_file).1 = Raise AssertionError_no_text /\
   launches (events_of (speak env_ok "" None None) world_with_old_file) = [] /\
   save_calls (events_of (speak env_ok "" None None) world_with_old_file) = [] /\
   fs (speak env_ok "" None None world_with_old_file).2 = fs world_with_old_file) /\
  fs world_with_old_file !! "__text_output.mp3" = Some other_audio /\
  ((speak env_offline "hello" None None world_with_old_file).1
     = Raise gTTSError_connection /\
   launches (events_of (speak env_offline "hello" None None) world_with_old_file) = []).
Proof.
  split; [|split; [reflexivity|]].
  - apply (proj1 (C10_no_player_after_library_failure env_ok world_with_old_file
                    "" None None)).
    reflexivity.
  - apply (proj2 (C10_no_player_after_library_failure env_offline
                    world_with_old_file "hello" None None)
             gTTSError_connection (Some [])); reflexivity.
Defined.

(** ** Further properties of [speak] and of the script *)

Lemma speak_ok_inv env w text lang tld :
  (speak env text lang tld w).1 = Ok tt ->
  exists audio, synthesizes env w text (default "en" lang) (default "" tld) audio.
Proof.
  intros Hok. pose proof (speak_spec env w text lang tld) as Hrun.
  inversion Hrun as [e He Hx Hw Hevs|e left Ha Hsv Hx Hw Hevs|audio Hs Hx Hw Hevs];
    [congruence | congruence | by exists audio].
Qed.

Lemma main_eof env w : stdin w = "" -> main env w = (Raise EOFError, w).
Proof. intros Hin. unfold main, mbind, Py_bind, input. by rewrite Hin. Qed.

Lemma take_line_no_newline s : no_newline (take_line s).1 = true.
Proof.
  induction s as [|c s IH]; [done|]. simpl.
  destruct (Ascii.eqb c newline) eqn:Hc; [done|].
  destruct (take_line s) as [l rest]. unfold no_newline in *. simpl in *.
  by rewrite Hc, IH.
Qed.

Lemma take_line_whole s : no_newline s = true -> take_line s = (s, "").
Proof.
  induction s as [|c s IH]; [done|]. unfold no_newline. simpl.
  intros [Hc Hs]%andb_prop. destruct (Ascii.eqb c newline); [done|].
  by rewrite (IH Hs).
Qed.

(** X2: [speak] returns normally exactly when the constructor accepts the
    request and [save] returns; the output file then holds the audio saved
    in this call. *)
Theorem speak_returns_iff_saved env w text lang tld :
  (speak env text lang tld w).1 = Ok tt <->
  exists audio,
    synthesizes env w text (default "en" lang) (default "" tld) audio /\
    fs (speak env text lang tld w).2 !! "__text_output.mp3" = Some audio.
Proof.
  split.
  - intros [audio Hs]%speak_ok_inv. exists audio. split; [done|].
    rewrite (speak_played _ _ _ _ _ _ Hs). simpl. apply lookup_insert_eq.
  - intros [audio [Hs _]]. by rewrite (speak_played _ _ _ _ _ _ Hs).
Qed.

Lemma speak_returns_iff_saved_witness :
  exists audio,
    synthesizes env_by_text world_with_old_file "bonjour" "fr" "" audio /\
    fs (speak env_by_text "bonjour" (Some "fr") None world_with_old_file).2
      !! "__text_output.mp3" = Some audio.
Proof.
  apply (proj1 (speak_returns_iff_saved env_by_text world_with_old_file
                  "bonjour" (Some "fr") None)).
  reflexivity.
Defined.

(** X3: every call of [speak] calls the constructor exactly once, with the
    text unchanged (an empty text included: [speak] checks nothing itself),
    the language as [lang] and the domain as [tld], defaults filled in; a
    save, when there is one, is of the object built from these arguments
    and goes to "__text_output.mp3". *)
Theorem speak_passes_arguments_through env w text lang tld :
  init_calls (events_of (speak env text lang tld) w)
    = [(text, default "en" lang, default "" tld)] /\
  (forall tts path r,
     EvSave tts path r ∈ events_of (speak env text lang tld) w ->
     tts = TTS text (default "en" lang) (default "" tld) /\
     path = "__text_output.mp3").
Proof.
  pose proof (speak_spec env w text lang tld) as Hrun.
  inversion Hrun as [e He Hx Hw Hevs|e left Ha Hsv Hx Hw Hevs|audio Hs Hx Hw Hevs];
    (split; [reflexivity|]); intros tts path r Hin;
    repeat (apply elem_of_cons in Hin; destruct Hin as [Hin|Hin];
            [by simplify_eq|]);
    by apply elem_of_nil in Hin.
Qed.

Lemma speak_passes_arguments_through_witness :
  init_calls (events_of (speak env_ok "" None (Some "co.uk")) (world_of_stdin ""))
    = [("", "en", "co.uk")] /\
  TTS "hello" "fr" "" = TTS "hello" (default "en" (Some "fr")) (default "" None) /\
  "__text_output.mp3" = "__text_output.mp3".
Proof.
  split.
  - apply (speak_passes_arguments_through env_ok (world_of_stdin "")
             "" None (Some "co.uk")).
  - apply (proj2 (speak_passes_arguments_through env_ok (world_of_stdin "")
                    "hello" (Some "fr") None)
             (TTS "hello" "fr" "") "__text_output.mp3" (Saved sample_audio)).
    vm_compute. apply list_elem_of_further, list_elem_of_here.
Defined.

(** X4: the result of [speak] and the files it leaves do not depend on the
    player: two environments with the same library give the same result
    and the same files, whatever status their shells return. *)
Theorem speak_result_independent_of_player env1 env2 w text lang tld :
  gTTS_init env1 = gTTS_init env2 ->
  gTTS_write env1 = gTTS_write env2 ->
  (speak env1 text lang tld w).1 = (speak env2 text lang tld w).1 /\
  fs (speak env1 text lang tld w).2 = fs (speak env2 text lang tld w).2.
Proof.
  destruct env1 as [i1 wr1 sh1], env2 as [i2 wr2 sh2]. simpl. intros -> ->.
  unfold speak, mbind, Py_bind, gTTS, save, os_system. simpl.
  destruct (i2 w text (default "en" lang) (default "" tld)); simpl; [done|].
  destruct (wr2 _ _ _) as [audio|e [partial|]]; done.
Qed.

Lemma speak_result_independent_of_player_witness :
  (speak env_ok "hello" None None world_with_old_file).1
    = (speak env_no_player "hello" None None world_with_old_file).1 /\
  fs (speak env_ok "hello" None None world_with_old_file).2
    = fs (speak env_no_player "hello" None None world_with_old_file).2.
Proof.
  apply (speak_result_independent_of_player env_ok env_no_player
           world_with_old_file "hello" None None); reflexivity.
Defined.

(** X5: run with standard input at its end, the script raises [EOFError]
    from [input()] before [speak] is entered: no library call, no player,
    the world unchanged, exit status 1. *)
Theorem main_on_exhausted_input env w :
  stdin w = "" ->
  main env w = (Raise EOFError, w) /\
  events_of (main env) w = [] /\
  (run_script env w).1 = 1.
Proof.
  intros Hin. unfold run_script, events_of. rewrite (main_eof _ _ Hin). simpl.
  by rewrite drop_all.
Qed.

Lemma main_on_exhausted_input_witness :
  main env_ok world_with_old_file = (Raise EOFError, world_with_old_file) /\
  events_of (main env_ok) world_with_old_file = [] /\
  (run_script env_ok world_with_old_file).1 = 1.
Proof. apply (main_on_exhausted_input env_ok world_with_old_file). reflexivity. Defined.

(** X6: a last line that ends at the end of input without a newline is
    still spoken: the script calls [speak] on all of the remaining input,
    in French, and leaves standard input empty. *)
Theorem main_on_unterminated_line env w :
  stdin w <> "" ->
  no_newline (stdin w) = true ->
  main env w =
    speak env (stdin w) (Some "fr") (Some "fr")
      {| fs := fs w; stdin := ""; trace := trace w |}.
Proof.
  intros Hne Hnl. rewrite (main_after_input _ _ Hne). unfold after_input.
  by rewrite (take_line_whole _ Hnl).
Qed.

Lemma main_on_unterminated_line_witness :
  main env_ok (world_of_stdin "bonjour") =
    speak env_ok "bonjour" (Some "fr") (Some "fr")
      {| fs := ∅; stdin := ""; trace := [] |}.
Proof.
  apply (main_on_unterminated_line env_ok (world_of_stdin "bonjour"));
    [discriminate | reflexivity].
Defined.

(** X7: whatever standard input holds and whatever the library does, the
    script takes exactly the first line off standard input, and a text it
    hands to the constructor has no newline in it and comes with language
    "fr" and domain "fr". *)
Theorem main_speaks_a_single_line env w :
  stdin (main env w).2 = (take_line (stdin w)).2 /\
  (forall text lang tld,
     (text, lang, tld) ∈ init_calls (events_of (main env) w) ->
     text = (take_line (stdin w)).1 /\ no_newline text = true /\
     lang = "fr" /\ tld = "fr").
Proof.
  destruct (decide (stdin w = "")) as [Hin|Hne].
  - unfold events_of. rewrite (main_eof _ _ Hin), Hin. simpl. split; [done|].
    rewrite drop_all. intros ??? Hx. by apply elem_of_nil in Hx.
  - rewrite (events_of_main _ _ Hne), (main_after_input _ _ Hne).
    split; [by rewrite speak_keeps_stdin|].
    intros text lang tld Hx.
    pose proof (speak_spec env (after_input w) (take_line (stdin w)).1
                  (Some "fr") (Some "fr")) as Hrun.
    assert (text = (take_line (stdin w)).1 /\ lang = "fr" /\ tld = "fr")
      as (-> & -> & ->).
    { inversion Hrun as [e He Hr Hw Hevs|e left Ha Hsv Hr Hw Hevs|audio Hs Hr Hw Hevs];
        rewrite <- Hevs in Hx; simpl in Hx;
        apply list_elem_of_singleton in Hx; by simplify_eq. }
    by rewrite take_line_no_newline.
Qed.

Lemma main_speaks_a_single_line_witness :
  stdin (main env_offline (world_of_stdin (line "un" ++ line "deux"))).2 = line "deux" /\
  "un" = (take_line (line "un" ++ line "deux")).1 /\ no_newline "un" = true /\
  "fr" = "fr" /\ "fr" = "fr".
Proof.
  split.
  - apply (main_speaks_a_single_line env_offline
             (world_of_stdin (line "un" ++ line "deux"))).
  - apply (proj2 (main_speaks_a_single_line env_offline
                    (world_of_stdin (line "un" ++ line "deux")))
             "un" "fr" "fr").
    vm_compute. apply list_elem_of_here.
Defined.
